(** * verification/verify_timeline_editor.py

    A shallow embedding of the timeline-editor smoke check and of its
    top-level driver.  The script is a straight line of calls into the
    browser-automation library; what the calls answer is not decided by
    the script, so the embedding runs the script against an environment
    that says, for every call, whether it returns or raises.  A run yields
    the chronological trace of calls and printed lines together with the
    outcome (normal return or the exception that escapes). *)

From Stdlib Require Import ZArith List Ascii String DecimalString Lia.
From stdpp Require Import base option strings gmap.

Local Open Scope string_scope.
Local Open Scope Z_scope.
Local Open Scope list_scope.

(** ** JSON values and their serialisation

    Python dicts and JS objects keep insertion order, and both
    [json.dumps] and [JSON.stringify] print the members in that order:
    an object is an association list. *)

#[warnings="-register-all"]
Inductive json : Type :=
| JNull
| JBool (b : bool)
| JNum (n : Z)
| JStr (s : string)
| JArr (items : list json)
| JObj (members : list (string * json)).

Definition dquote : ascii := "034"%char.
Definition backslash : ascii := "092"%char.

Definition hex_digit (n : N) : ascii :=
  if (n <? 10)%N then ascii_of_N (48 + n) else ascii_of_N (87 + n).

(** The escape of one character inside a JSON string: the quote, the
    backslash, the five short control escapes, and [\u00XX] for the other
    control characters. *)
Definition escape_char (c : ascii) : string :=
  let n := N_of_ascii c in
  if (n =? 34)%N then String backslash (String dquote EmptyString)
  else if (n =? 92)%N then String backslash (String backslash EmptyString)
  else if (n =? 10)%N then String backslash "n"
  else if (n =? 13)%N then String backslash "r"
  else if (n =? 9)%N then String backslash "t"
  else if (n =? 8)%N then String backslash "b"
  else if (n =? 12)%N then String backslash "f"
  else if (n <? 32)%N then
    String backslash ("u00" +:+ String (hex_digit (n / 16)) (String (hex_digit (n mod 16)) EmptyString))
  else String c EmptyString.

Fixpoint escape_string (s : string) : string :=
  match s with
  | EmptyString => EmptyString
  | String c r => escape_char c +:+ escape_string r
  end.

Definition quoted (s : string) : string :=
  String dquote (escape_string s +:+ String dquote EmptyString).

Definition string_of_Z (n : Z) : string := NilZero.string_of_int (Z.to_int n).

Section Serialise.
(** [item_sep] goes between the items of an array and the members of an
    object, [key_sep] between a key and its value. *)
Variables item_sep key_sep : string.

Fixpoint serialise (j : json) : string :=
  match j with
  | JNull => "null"
  | JBool true => "true"
  | JBool false => "false"
  | JNum n => string_of_Z n
  | JStr s => quoted s
  | JArr items =>
      "[" +:+
      (fix go (l : list json) : string :=
         match l with
         | [] => EmptyString
         | [x] => serialise x
         | x :: r => serialise x +:+ item_sep +:+ go r
         end) items +:+ "]"
  | JObj members =>
      "{" +:+
      (fix go (l : list (string * json)) : string :=
         match l with
         | [] => EmptyString
         | [(k, v)] => quoted k +:+ key_sep +:+ serialise v
         | (k, v) :: r => quoted k +:+ key_sep +:+ serialise v +:+ item_sep +:+ go r
         end) members +:+ "}"
  end.
End Serialise.

(** Python's [json.dumps] with its default separators. *)
Definition json_dumps : json -> string := serialise ", " ": ".

(** JavaScript's [JSON.stringify] with no indentation. *)
Definition JSON_stringify : json -> string := serialise "," ":".

(** The dotted paths of the scalar fields of a value. *)
Fixpoint field_paths (j : json) : list (list string) :=
  match j with
  | JObj members =>
      (fix go (l : list (string * json)) : list (list string) :=
         match l with
         | [] => []
         | (k, v) :: r => List.map (cons k) (field_paths v) ++ go r
         end) members
  | _ => [ [] ]
  end.

(** ** Exceptions *)

Inductive exn_class : Type :=
| TimeoutError            (* playwright: TimeoutError < Error < Exception *)
| PlaywrightError         (* playwright: Error < Exception *)
| AssertionError          (* raised by a failed [expect] *)
| OtherException (name : string)
| KeyboardInterrupt       (* BaseException, not Exception *)
| SystemExit              (* BaseException, not Exception *)
| GeneratorExit.          (* BaseException, not Exception *)

(** [isinstance(e, Exception)]. *)
Definition is_Exception (c : exn_class) : bool :=
  match c with
  | KeyboardInterrupt | SystemExit | GeneratorExit => false
  | _ => true
  end.

Record py_exn : Type := mk_exn { exn_cls : exn_class; exn_msg : string }.

(** [str(e)]. *)
Definition str (e : py_exn) : string := exn_msg e.

(** ** Route handlers

    A handler is called by the browser with the intercepted route; what it
    does with it is a list of effects.  [HContinue] and [HFallback] are the
    two ways a handler lets the request go on (to the network or to the
    next handler); [HFulfill] answers it in place. *)

Record route : Type := mk_route { request_url : string }.

Inductive handler_effect : Type :=
| HPrint (line : string)
| HFulfill (status : Z) (content_type : option string) (body : option string)
| HContinue
| HFallback
| HAbort.

Definition handler : Type := route -> list handler_effect.

(** ** Calls into the library and traces *)

Inductive locator : Type :=
| get_by_text (text : string)
| get_by_role (role name : string)
| get_by_title (title : string).

(** The client-side state the injected script touches. *)
Record page_storage : Type := mk_storage {
  localStorage : gmap string string;
  cookies : gmap string string
}.

Inductive call : Type :=
| CPlaywrightStart                       (* sync_playwright().__enter__ *)
| CPlaywrightStop                        (* sync_playwright().__exit__ *)
| CLaunch (headless : bool)              (* p.chromium.launch *)
| CNewPage                               (* browser.new_page *)
| CBrowserClose                          (* browser.close *)
| COn (event_name : string)              (* page.on *)
| CRoute (pattern : string) (h : handler) (* page.route *)
| CGoto (url : string)                   (* page.goto *)
| CEvaluate (script : page_storage -> page_storage) (* page.evaluate *)
| CReload                                (* page.reload *)
| CExpectVisible (l : locator) (timeout : option Z) (* expect(l).to_be_visible *)
| CScreenshot (path : string)            (* page.screenshot *)
| CClick (selector : string)             (* page.click *)
| CKeyboardPress (key : string)          (* page.keyboard.press *)
| CLocatorClick (l : locator).           (* locator.click *)

Inductive event : Type :=
| EvCall (c : call) (raised : option py_exn)
| EvPrint (line : string).

(** The environment: for each call, [None] when it returns and [Some e]
    when it raises [e].  No call occurs twice in a run of the script, and
    the calls before a given one are always the same, so an answer per call
    is as general as an answer per call and history. *)
Definition env : Type := call -> option py_exn.

Inductive result (A : Type) : Type :=
| Ok (a : A)
| Raise (e : py_exn).
Arguments Ok {A} a.
Arguments Raise {A} e.

(** ** The monad of the script: read the environment, write the trace,
    return or raise. *)

Definition M (A : Type) : Type := env -> list event * result A.

#[export] Instance M_ret : MRet M := fun A a _ => ([], Ok a).

#[export] Instance M_bind : MBind M := fun A B k m ev =>
  match m ev with
  | (t1, Ok a) => let '(t2, r) := k a ev in (t1 ++ t2, r)
  | (t1, Raise e) => (t1, Raise e)
  end.

Definition do_call (c : call) : M unit := fun ev =>
  match ev c with
  | None => ([EvCall c None], Ok tt)
  | Some e => ([EvCall c (Some e)], Raise e)
  end.

Definition print (line : string) : M unit := fun _ => ([EvPrint line], Ok tt).

Definition raise {A} (e : py_exn) : M A := fun _ => ([], Raise e).

(** [try: body / except: handler] with a bare [except]: every exception
    is handed to the handler. *)
Definition try_except {A} (body : M A) (handler : py_exn -> M A) : M A := fun ev =>
  match body ev with
  | (t1, Ok a) => (t1, Ok a)
  | (t1, Raise e) => let '(t2, r) := handler e ev in (t1 ++ t2, r)
  end.

(** [try: body / except Exception as e: handler]: only instances of
    [Exception] are handed to the handler, the others go on. *)
Definition try_except_Exception {A} (body : M A) (handler : py_exn -> M A) : M A := fun ev =>
  match body ev with
  | (t1, Ok a) => (t1, Ok a)
  | (t1, Raise e) =>
      if is_Exception (exn_cls e)
      then let '(t2, r) := handler e ev in (t1 ++ t2, r)
      else (t1, Raise e)
  end.

(** [try: body / finally: cleanup]: the cleanup runs on every exit of the
    body; an exception of the cleanup replaces the body's outcome. *)
Definition try_finally {A} (body : M A) (cleanup : M unit) : M A := fun ev =>
  let '(t1, r) := body ev in
  match cleanup ev with
  | (t2, Ok _) => (t1 ++ t2, r)
  | (t2, Raise e) => (t1 ++ t2, Raise e)
  end.

(** [with sync_playwright() as p: body]: when entering raises the body
    does not run; otherwise the exit runs on every exit of the body and
    does not suppress an exception. *)
Definition with_sync_playwright {A} (body : M A) : M A :=
  do_call CPlaywrightStart ;; try_finally body (do_call CPlaywrightStop).

(** ** The script *)

Definition handle_json (r : route) (data : json) : list handler_effect :=
  [ HPrint ("MOCKING: " +:+ request_url r);
    HFulfill 200 (Some "application/json") (Some (json_dumps data)) ].

Definition auth_refresh_data : json :=
  JObj [ ("record", JObj [ ("id", JStr "user1"); ("email", JStr "test@test.com") ]);
         ("token", JStr "test-token") ].

Definition workspaces_data : json :=
  JObj [ ("items", JArr [ JObj [ ("id", JStr "ws1");
                                 ("name", JStr "Test Workspace");
                                 ("members", JArr [ JStr "user1" ]) ] ]) ].

Definition timeline_data : json :=
  JObj [ ("id", JStr "tl1");
         ("name", JStr "Test Timeline");
         ("WorkspaceRef", JStr "ws1");
         ("clips", JArr []);
         ("duration", JNum 100);
         ("expand", JObj [ ("TimelineClips_via_TimelineRef", JArr []) ]) ].

Definition media_clips_data : json :=
  JObj [ ("items", JArr []); ("totalItems", JNum 0) ].

Definition recommendations_data : json :=
  JObj [ ("items", JArr []); ("totalItems", JNum 0) ].

Definition auth_refresh_handler : handler := fun r => handle_json r auth_refresh_data.
Definition workspaces_handler : handler := fun r => handle_json r workspaces_data.
Definition timeline_handler : handler := fun r => handle_json r timeline_data.
Definition media_clips_handler : handler := fun r => handle_json r media_clips_data.
Definition recommendations_handler : handler := fun r => handle_json r recommendations_data.
Definition files_handler : handler := fun r => [ HFulfill 404 None None ].

(** *** The script run in the page by [page.evaluate] *)

Definition authStore : json :=
  JObj [ ("token", JStr "test-token");
         ("model", JObj [ ("id", JStr "user1"); ("email", JStr "test@test.com") ]) ].

Fixpoint split_at (sep : ascii) (s : string) : string * option string :=
  match s with
  | EmptyString => (EmptyString, None)
  | String c r =>
      if Ascii.eqb c sep then (EmptyString, Some r)
      else let '(a, b) := split_at sep r in (String c a, b)
    end.

(** Assigning [document.cookie]: the text before the first [;] is the
    pair, its name ends at the first [=]; the attributes after the [;]
    (here the path) do not change the value. *)
Definition set_document_cookie (assigned : string) (st : page_storage) : page_storage :=
  let '(name_value, _) := split_at ";" assigned in
  match split_at "=" name_value with
  | (name, Some value) => mk_storage (localStorage st) (<[name := value]> (cookies st))
  | (value, None) => mk_storage (localStorage st) (<[EmptyString := value]> (cookies st))
  end.

Definition localStorage_setItem (key value : string) (st : page_storage) : page_storage :=
  mk_storage (<[key := value]> (localStorage st)) (cookies st).

Definition inject_auth_script (st : page_storage) : page_storage :=
  let st1 := localStorage_setItem "pocketbase_auth" (JSON_stringify authStore) st in
  set_document_cookie ("pb_auth=" +:+ JSON_stringify authStore +:+ "; path=/") st1.

(** *** [test_timeline_editor]

    The two listeners given to [page.on] only print what the page logs;
    they run inside the browser's calls and touch neither the control flow
    nor the files, and their lines are not part of the trace.  Nor are the
    lines "MOCKING: ..." of [handle_json], which the browser prints while
    it serves a request inside one of the calls: an [EvPrint] of a trace is
    a [print] statement of the script itself, and the output of a real run
    has the lines of the callbacks in between.  The
    locators ([get_by_text] and the like) are values: building one does not
    call the browser.  [print] does not raise. *)

Definition target_url : string := "http://localhost:3000/timelines/tl1".
Definition timeout_png : string := "verification/timeout.png".
Definition verification_png : string := "verification/verification.png".

Definition wait_for_content : call :=
  CExpectVisible (get_by_text "Test Timeline") (Some 10000).

Definition test_timeline_editor : M unit :=
  do_call (COn "console") ;;
  do_call (COn "pageerror") ;;
  do_call (CRoute "**/api/collections/users/auth-refresh" auth_refresh_handler) ;;
  do_call (CRoute "**/api/collections/Workspaces/records**" workspaces_handler) ;;
  do_call (CRoute "**/api/collections/Timelines/records/tl1*" timeline_handler) ;;
  do_call (CRoute "**/api/collections/MediaClips/records**" media_clips_handler) ;;
  do_call (CRoute "**/api/collections/TimelineRecommendations/records**"
                  recommendations_handler) ;;
  do_call (CRoute "**/api/files/**" files_handler) ;;
  print "Navigating..." ;;
  do_call (CGoto target_url) ;;
  print "Injecting auth..." ;;
  do_call (CEvaluate inject_auth_script) ;;
  print "Reloading..." ;;
  do_call CReload ;;
  print "Waiting for content..." ;;
  try_except
    (do_call wait_for_content)
    (fun e =>
       print "Timeout. Taking screenshot..." ;;
       do_call (CScreenshot timeout_png) ;;
       raise e) ;;
  print "Timeline loaded." ;;
  do_call (CClick "text=Recent") ;;
  do_call (CExpectVisible (get_by_role "option" "Creation Time") None) ;;
  print "Creation Time option found." ;;
  do_call (CKeyboardPress "Escape") ;;
  let settings_btn := get_by_title "Settings" in
  do_call (CExpectVisible settings_btn None) ;;
  print "Settings button found." ;;
  do_call (CLocatorClick settings_btn) ;;
  do_call (CExpectVisible (get_by_text "Recommendation Settings") None) ;;
  do_call (CExpectVisible (get_by_text "Active Strategies") None) ;;
  print "Settings modal opened." ;;
  do_call (CScreenshot verification_png) ;;
  print "Screenshot taken.".

(** *** The driver under [if __name__ == "__main__"]

    [driver] is the driver with the function it calls as a parameter. *)

Definition driver (test : M unit) : M unit :=
  with_sync_playwright
    (do_call (CLaunch true) ;;
     do_call CNewPage ;;
     try_finally
       (try_except_Exception test (fun e => print ("Error: " +:+ str e)))
       (do_call CBrowserClose)).

Definition main : M unit := driver test_timeline_editor.

(** ** What a trace shows *)

Definition trace {A} (run : list event * result A) : list event := fst run.
Definition outcome {A} (run : list event * result A) : result A := snd run.

(** The calls of a trace, in order, without their answers. *)
Fixpoint calls (t : list event) : list call :=
  match t with
  | [] => []
  | EvCall c _ :: r => c :: calls r
  | EvPrint _ :: r => calls r
  end.

(** The paths [page.screenshot] was called with, and the paths of the
    calls that returned: the files the run wrote. *)
Fixpoint screenshot_calls (t : list event) : list string :=
  match t with
  | [] => []
  | EvCall (CScreenshot path) _ :: r => path :: screenshot_calls r
  | _ :: r => screenshot_calls r
  end.

Fixpoint files_written (t : list event) : list string :=
  match t with
  | [] => []
  | EvCall (CScreenshot path) None :: r => path :: files_written r
  | _ :: r => files_written r
  end.

(** The routes whose registration returned, in registration order. *)
Fixpoint routes_registered (t : list event) : list (string * handler) :=
  match t with
  | [] => []
  | EvCall (CRoute pattern h) None :: r => (pattern, h) :: routes_registered r
  | _ :: r => routes_registered r
  end.

Fixpoint count_close (t : list event) : nat :=
  match t with
  | [] => 0%nat
  | EvCall CBrowserClose _ :: r => S (count_close r)
  | _ :: r => count_close r
  end.

(** The calls made after [page.reload]. *)
Fixpoint after_reload (cs : list call) : list call :=
  match cs with
  | [] => []
  | CReload :: r => r
  | _ :: r => after_reload r
  end.

(** The lines of the [print] statements of the script itself, in order.
    The lines that the route handlers and the two listeners print while a
    call into the library runs are not among them. *)
Fixpoint prints (t : list event) : list string :=
  match t with
  | [] => []
  | EvPrint line :: r => line :: prints r
  | _ :: r => prints r
  end.

(** The scripts handed to [page.evaluate], in order. *)
Fixpoint evaluated_scripts (t : list event) : list (page_storage -> page_storage) :=
  match t with
  | [] => []
  | EvCall (CEvaluate script) _ :: r => script :: evaluated_scripts r
  | _ :: r => evaluated_scripts r
  end.

(** [all_return ev cs]: every call of [cs] returns in [ev]. *)
Fixpoint all_return (ev : env) (cs : list call) : Prop :=
  match cs with
  | [] => True
  | c :: r => ev c = None /\ all_return ev r
  end.

Definition prepend {A} (e : event) (run : list event * result A) : list event * result A :=
  (e :: fst run, snd run).

(** ** The steps of the script, as lists *)

(** The routes of the script, in registration order. *)
Definition script_routes : list (string * handler) :=
  [ ("**/api/collections/users/auth-refresh", auth_refresh_handler);
    ("**/api/collections/Workspaces/records**", workspaces_handler);
    ("**/api/collections/Timelines/records/tl1*", timeline_handler);
    ("**/api/collections/MediaClips/records**", media_clips_handler);
    ("**/api/collections/TimelineRecommendations/records**", recommendations_handler);
    ("**/api/files/**", files_handler) ].

Definition mocked_patterns : list string := List.map fst script_routes.

(** The calls up to and including the reload. *)
Definition setup_calls : list call :=
  [ COn "console"; COn "pageerror" ] ++
  List.map (fun ph => CRoute (fst ph) (snd ph)) script_routes ++
  [ CGoto target_url; CEvaluate inject_auth_script; CReload ].

(** The waits, interactions and assertions after the reload. *)
Definition assertion_sequence : list call :=
  [ wait_for_content;
    CClick "text=Recent";
    CExpectVisible (get_by_role "option" "Creation Time") None;
    CKeyboardPress "Escape";
    CExpectVisible (get_by_title "Settings") None;
    CLocatorClick (get_by_title "Settings");
    CExpectVisible (get_by_text "Recommendation Settings") None;
    CExpectVisible (get_by_text "Active Strategies") None ].

(** The assertions that come after the wait for the content. *)
Definition later_assertions : list call :=
  [ CExpectVisible (get_by_role "option" "Creation Time") None;
    CExpectVisible (get_by_title "Settings") None;
    CExpectVisible (get_by_text "Recommendation Settings") None;
    CExpectVisible (get_by_text "Active Strategies") None ].

(** ** Mocks before requests

    A page can only issue a request while the browser is made to load,
    run or wait on it: every call on the page except the registrations
    [page.on] and [page.route]. *)
Definition drives_page (c : call) : bool :=
  match c with
  | CGoto _ | CEvaluate _ | CReload | CExpectVisible _ _ | CScreenshot _
  | CClick _ | CKeyboardPress _ | CLocatorClick _ => true
  | _ => false
  end.

(** [mocks_precede_requests installed t]: walking [t] with the patterns
    [installed] so far, every call that drives the page finds all the
    mocked patterns installed. *)
Fixpoint mocks_precede_requests (installed : list string) (t : list event) : bool :=
  match t with
  | [] => true
  | EvPrint _ :: r => mocks_precede_requests installed r
  | EvCall c raised :: r =>
      match c, raised with
      | CRoute pattern _, None => mocks_precede_requests (installed ++ [pattern]) r
      | _, _ =>
          (negb (drives_page c) || bool_decide (installed = mocked_patterns))
          && mocks_precede_requests installed r
      end
  end.

(** ** The endpoint table of the specification

    [spec_endpoints] follows the table of mocked endpoints of the
    specification, not the script: pattern, status, and the shape of the
    body.  A shape names the members the table names; [SObj true] is an
    object with exactly those members, [SObj false] one that has them
    among others (the timeline object). *)

#[warnings="-register-all"]
Inductive shape : Type :=
| SAny
| SNum (n : Z)
| SArr (items : list shape)
| SObj (exact : bool) (fields : list (string * shape)).

Inductive spec_body : Type :=
| BodyEmpty
| BodyJson (sh : shape).

Fixpoint member (k : string) (members : list (string * json)) : option json :=
  match members with
  | [] => None
  | (k', v) :: r => if String.eqb k k' then Some v else member k r
  end.


Definition spec_endpoints : list (string * (Z * spec_body)) :=
  [ ("**/api/collections/users/auth-refresh",
     (200, BodyJson (SObj true [ ("record", SObj true [ ("id", SAny); ("email", SAny) ]);
                                 ("token", SAny) ])));
    ("**/api/collections/Workspaces/records**",
     (200, BodyJson (SObj true [ ("items", SArr [ SObj true [ ("id", SAny); ("name", SAny);
                                                              ("members", SAny) ] ]) ])));
    ("**/api/collections/Timelines/records/tl1*",
     (200, BodyJson (SObj false [ ("clips", SAny); ("duration", SAny); ("expand", SAny) ])));
    ("**/api/collections/MediaClips/records**",
     (200, BodyJson (SObj true [ ("items", SArr []); ("totalItems", SNum 0) ])));
    ("**/api/collections/TimelineRecommendations/records**",
     (200, BodyJson (SObj true [ ("items", SArr []); ("totalItems", SNum 0) ])));
    ("**/api/files/**", (404, BodyEmpty)) ].

(** What a handler answers with, and whether it lets the request through. *)
Fixpoint fulfilments (effs : list handler_effect) : list (Z * option string * option string) :=
  match effs with
  | [] => []
  | HFulfill status content_type body :: r => (status, content_type, body) :: fulfilments r
  | _ :: r => fulfilments r
  end.






(** ** Some environments *)

(** Every call returns. *)
Definition ok_env : env := fun _ => None.

Definition not_visible : py_exn := mk_exn AssertionError "Locator expected to be visible".
Definition interrupted : py_exn := mk_exn KeyboardInterrupt EmptyString.

(** The text "Test Timeline" does not show within the 10 seconds. *)
Definition env_content_times_out : env := fun c =>
  match c with
  | CExpectVisible (get_by_text _) (Some _) => Some not_visible
  | _ => None
  end.

(** The option "Creation Time" does not show before the wait of the
    assertion gives up. *)
Definition env_option_times_out : env := fun c =>
  match c with
  | CExpectVisible (get_by_role _ _) _ => Some not_visible
  | _ => None
  end.


(** The user interrupts the run during the wait for the content. *)
Definition env_wait_interrupted : env := fun c =>
  match c with
  | CExpectVisible (get_by_text _) (Some _) => Some interrupted
  | _ => None
  end.

(** The navigation fails: nothing listens on the port. *)
Definition env_connection_refused : env := fun c =>
  match c with
  | CGoto _ => Some (mk_exn PlaywrightError "net::ERR_CONNECTION_REFUSED")
  | _ => None
  end.

(** The wait for the content fails, and so does the screenshot of its
    handler. *)
Definition screenshot_failed : py_exn := mk_exn PlaywrightError "Target crashed".

Definition env_wait_and_screenshot_fail : env := fun c =>
  match c with
  | CExpectVisible (get_by_text _) (Some _) => Some not_visible
  | CScreenshot _ => Some screenshot_failed
  | _ => None
  end.

(** The steps of the script that are outside its [try] and before the
    final screenshot: the calls up to the reload, and the interactions and
    assertions after the guarded wait. *)
Definition unguarded_steps : list call := setup_calls ++ tl assertion_sequence.

(** ** What the driver makes of an outcome *)

(** What the driver prints for the outcome of the function it calls. *)
Definition error_log (r : result unit) : list event :=
  match r with
  | Ok _ => []
  | Raise e => if is_Exception (exn_cls e) then [EvPrint ("Error: " +:+ str e)] else []
  end.

(** What the [try]/[except Exception] of the driver makes of that outcome. *)
Definition after_except (r : result unit) : result unit :=
  match r with
  | Ok _ => Ok tt
  | Raise e => if is_Exception (exn_cls e) then Ok tt else Raise e
  end.

(** ** The whole run, as lists *)

(** The calls the driver makes before it calls the function. *)
Definition driver_setup : list call := [ CPlaywrightStart; CLaunch true; CNewPage ].

(** Every call of [test_timeline_editor], in the order of the script; the
    screenshot call of the handler of the wait is not among them. *)
Definition script_calls : list call :=
  setup_calls ++ assertion_sequence ++ [ CScreenshot verification_png ].

(** The lines of [test_timeline_editor] outside the handler of the wait,
    in the order of the script. *)
Definition progress_lines : list string :=
  [ "Navigating..."; "Injecting auth..."; "Reloading..."; "Waiting for content...";
    "Timeline loaded."; "Creation Time option found."; "Settings button found.";
    "Settings modal opened."; "Screenshot taken." ].

Definition timeout_line : string := "Timeout. Taking screenshot...".

(** The calls of a trace that raised, with what they raised. *)
Fixpoint raised (t : list event) : list (call * py_exn) :=
  match t with
  | [] => []
  | EvCall c (Some e) :: r => (c, e) :: raised r
  | _ :: r => raised r
  end.

(** [failures_end_run ev t]: in [t] a call that raised is the last event,
    unless it is the guarded wait, which is followed by the line and the
    screenshot call of its handler and by nothing more. *)
Fixpoint failures_end_run (ev : env) (t : list event) : Prop :=
  match t with
  | [] => True
  | EvCall c (Some _) :: r =>
      (r = [] \/
       (c = wait_for_content /\
        r = [ EvPrint timeout_line;
              EvCall (CScreenshot timeout_png) (ev (CScreenshot timeout_png)) ]))
      /\ failures_end_run ev r
  | _ :: r => failures_end_run ev r
  end.

(** The lines a handler prints. *)
Fixpoint handler_prints (effs : list handler_effect) : list string :=
  match effs with
  | [] => []
  | HPrint line :: r => line :: handler_prints r
  | _ :: r => handler_prints r
  end.

(** The member [k] of an object. *)
Definition field (k : string) (j : json) : option json :=
  match j with
  | JObj members => member k members
  | _ => None
  end.

(** Opening the page fails after the browser was launched. *)
Definition env_no_page : env := fun c =>
  match c with
  | CNewPage => Some (mk_exn PlaywrightError "Target page, context or browser has been closed")
  | _ => None
  end.

(** Everything goes well until [browser.close], which fails. *)
Definition env_close_fails : env := fun c =>
  match c with
  | CBrowserClose => Some (mk_exn PlaywrightError "Connection closed")
  | _ => None
  end.

(** * Proofs *)

(** ** Equations of the monad *)

Section Equations.
Context {A B : Type}.

Lemma bind_call (c : call) (k : unit -> M A) (ev : env) :
  (do_call c ≫= k) ev =
  match ev c with
  | None => prepend (EvCall c None) (k tt ev)
  | Some e => ([EvCall c (Some e)], Raise e)
  end.
Proof.
  unfold mbind, M_bind, do_call, prepend.
  destruct (ev c); [reflexivity|]. destruct (k tt ev); reflexivity.
Qed.

Lemma bind_print (line : string) (k : unit -> M A) (ev : env) :
  (print line ≫= k) ev = prepend (EvPrint line) (k tt ev).
Proof.
  unfold mbind, M_bind, print, prepend. destruct (k tt ev); reflexivity.
Qed.

Lemma bind_raise (e : py_exn) (k : B -> M A) (ev : env) :
  (raise e ≫= k) ev = ([], Raise e).
Proof. reflexivity. Qed.

Lemma bind_assoc {C} (m : M C) (f : C -> M B) (k : B -> M A) (ev : env) :
  ((m ≫= f) ≫= k) ev = (m ≫= (fun c => f c ≫= k)) ev.
Proof.
  unfold mbind, M_bind.
  destruct (m ev) as [t1 [c|e]]; [|reflexivity].
  destruct (f c ev) as [t2 [b|e]]; [|reflexivity].
  destruct (k b ev) as [t3 r]. rewrite app_assoc. reflexivity.
Qed.

Lemma bind_try_call (c : call) (h : py_exn -> M unit) (k : unit -> M A) (ev : env) :
  (try_except (do_call c) h ≫= k) ev =
  match ev c with
  | None => prepend (EvCall c None) (k tt ev)
  | Some e => prepend (EvCall c (Some e)) ((h e ≫= k) ev)
  end.
Proof.
  unfold mbind, M_bind, try_except, do_call, prepend.
  destruct (ev c) as [e|].
  - destruct (h e ev) as [t2 [[]|e']]; [|reflexivity].
    destruct (k tt ev); reflexivity.
  - destruct (k tt ev); reflexivity.
Qed.
End Equations.

(** One step of a run kept in the equation [H]: rewrite the head of the
    script with its equation and, at a call, split on what the environment
    answers. *)
Ltac run_step H ev :=
  first
    [ rewrite bind_print in H; cbv beta in H
    | rewrite bind_assoc in H; cbv beta in H
    | rewrite bind_raise in H
    | rewrite bind_try_call in H; cbv beta in H;
      lazymatch type of H with
      | context [match ev ?c with _ => _ end] => destruct (ev c) eqn:?
      end
    | rewrite bind_call in H; cbv beta in H;
      lazymatch type of H with
      | context [match ev ?c with _ => _ end] => destruct (ev c) eqn:?
      end ].

(** All the runs of [test_timeline_editor] in [ev], one goal per run. *)
Ltac all_runs ev :=
  let run := fresh "run" in
  let Hrun := fresh "Hrun" in
  remember (test_timeline_editor ev) as run eqn:Hrun;
  unfold test_timeline_editor in Hrun;
  repeat run_step Hrun ev;
  cbv [print prepend fst snd] in Hrun;
  subst run; cbv [trace outcome fst snd].

(** ** Observers and concatenation *)

Lemma count_close_app (t1 t2 : list event) :
  count_close (t1 ++ t2) = (count_close t1 + count_close t2)%nat.
Proof.
  induction t1 as [|[c r|line] t1 IH]; simpl; [reflexivity| |exact IH].
  destruct c; simpl; rewrite IH; reflexivity.
Qed.

Lemma prints_app (t1 t2 : list event) : prints (t1 ++ t2) = prints t1 ++ prints t2.
Proof.
  induction t1 as [|[c r|line] t1 IH]; simpl; [reflexivity|exact IH|].
  rewrite IH. reflexivity.
Qed.

(** ** Facts about every run of [test_timeline_editor] *)

Lemma script_never_closes (ev : env) :
  count_close (trace (test_timeline_editor ev)) = 0%nat.
Proof. all_runs ev; reflexivity. Qed.

Lemma routes_registered_prefix (ev : env) :
  exists n, routes_registered (trace (test_timeline_editor ev)) = firstn n script_routes.
Proof.
  all_runs ev;
    first [ exists 0%nat; reflexivity | exists 1%nat; reflexivity
          | exists 2%nat; reflexivity | exists 3%nat; reflexivity
          | exists 4%nat; reflexivity | exists 5%nat; reflexivity
          | exists 6%nat; reflexivity ].
Qed.

Lemma script_mocks_precede_requests (ev : env) :
  mocks_precede_requests [] (trace (test_timeline_editor ev)) = true.
Proof. all_runs ev; reflexivity. Qed.

(** ** C1: what the registered handlers answer *)

(** An entry that is in a table written out. *)
Ltac in_table := solve [ repeat first [ left; reflexivity | right ] ].



(** The patterns the script registers are those of the table, in its order. *)
Lemma mocked_patterns_are_spec_patterns :
  mocked_patterns = List.map fst spec_endpoints.
Proof. reflexivity. Qed.



(** ** C7: the mocks are installed before the page is driven *)

Lemma mocks_precede_requests_sound (t : list event) :
  forall installed,
    mocks_precede_requests installed t = true ->
    forall t1 c r t2,
      t = t1 ++ EvCall c r :: t2 ->
      drives_page c = true ->
      installed ++ List.map fst (routes_registered t1) = mocked_patterns.
Proof.
  induction t as [|x t IH]; intros installed Hchk t1 c r t2 Hsplit Hdrives.
  - destruct t1; discriminate Hsplit.
  - destruct t1 as [|y t1].
    + injection Hsplit as -> ->. simpl.
      rewrite app_nil_r.
      simpl in Hchk.
      destruct c; try discriminate Hdrives;
        simpl in Hchk; apply andb_prop in Hchk as [Hd _];
        apply bool_decide_eq_true_1 in Hd; exact Hd.
    + injection Hsplit as <- ->.
      destruct x as [c0 r0|line].
      * destruct c0, r0; simpl in Hchk |- *;
          try (apply andb_prop in Hchk as [_ Hchk]);
          try (apply (IH _ Hchk _ _ _ _ eq_refl Hdrives)).
        rewrite <- (IH _ Hchk _ _ _ _ eq_refl Hdrives).
        rewrite <- app_assoc. reflexivity.
      * simpl in Hchk |- *. apply (IH _ Hchk _ _ _ _ eq_refl Hdrives).
Qed.

(** C7. At every call of a run that drives the page (the first of them
    is the navigation to the target URL), the registrations that have
    returned before it are those of the six mocked patterns, in the order
    of the script. *)
Theorem C7_routes_registered_before_navigation
    (ev : env) (t1 t2 : list event) (c : call) (r : option py_exn) :
  trace (test_timeline_editor ev) = t1 ++ EvCall c r :: t2 ->
  drives_page c = true ->
  List.map fst (routes_registered t1) = mocked_patterns.
Proof.
  intros Hsplit Hdrives.
  exact (mocks_precede_requests_sound _ [] (script_mocks_precede_requests ev)
           t1 c r t2 Hsplit Hdrives).
Qed.

Lemma C7_witness :
  List.map fst
    (routes_registered
       [ EvCall (COn "console") None; EvCall (COn "pageerror") None;
         EvCall (CRoute "**/api/collections/users/auth-refresh" auth_refresh_handler) None;
         EvCall (CRoute "**/api/collections/Workspaces/records**" workspaces_handler) None;
         EvCall (CRoute "**/api/collections/Timelines/records/tl1*" timeline_handler) None;
         EvCall (CRoute "**/api/collections/MediaClips/records**" media_clips_handler) None;
         EvCall (CRoute "**/api/collections/TimelineRecommendations/records**"
                        recommendations_handler) None;
         EvCall (CRoute "**/api/files/**" files_handler) None;
         EvPrint "Navigating..." ]) = mocked_patterns.
Proof.
  apply (C7_routes_registered_before_navigation env_connection_refused _ []
           (CGoto target_url)
           (Some (mk_exn PlaywrightError "net::ERR_CONNECTION_REFUSED"))).
  - reflexivity.
  - reflexivity.
Defined.

(** ** The driver *)

Section Driver.
Variable ev : env.
Variable test : M unit.
Hypothesis started : ev CPlaywrightStart = None.
Hypothesis launched : ev (CLaunch true) = None.
Hypothesis page_opened : ev CNewPage = None.

Lemma driver_trace :
  trace (driver test ev) =
  [ EvCall CPlaywrightStart None; EvCall (CLaunch true) None; EvCall CNewPage None ]
  ++ trace (test ev) ++ error_log (outcome (test ev))
  ++ [ EvCall CBrowserClose (ev CBrowserClose); EvCall CPlaywrightStop (ev CPlaywrightStop) ].
Proof.
  unfold driver, with_sync_playwright, try_finally, try_except_Exception,
    mbind, M_bind, do_call, print, trace, outcome.
  rewrite started, launched, page_opened.
  destruct (test ev) as [t [[]|e]]; simpl.
  - destruct (ev CBrowserClose), (ev CPlaywrightStop); simpl;
      rewrite <- ?app_assoc; reflexivity.
  - destruct (is_Exception (exn_cls e));
      destruct (ev CBrowserClose), (ev CPlaywrightStop); simpl;
      rewrite <- ?app_assoc; reflexivity.
Qed.

Lemma driver_outcome :
  outcome (driver test ev) =
  match ev CPlaywrightStop, ev CBrowserClose with
  | Some e, _ => Raise e
  | None, Some e => Raise e
  | None, None => after_except (outcome (test ev))
  end.
Proof.
  unfold driver, with_sync_playwright, try_finally, try_except_Exception,
    mbind, M_bind, do_call, print, trace, outcome.
  rewrite started, launched, page_opened.
  destruct (test ev) as [t [[]|e]]; simpl.
  - destruct (ev CBrowserClose), (ev CPlaywrightStop); reflexivity.
  - destruct (is_Exception (exn_cls e));
      destruct (ev CBrowserClose), (ev CPlaywrightStop); reflexivity.
Qed.
End Driver.

Lemma count_close_error_log (r : result unit) : count_close (error_log r) = 0%nat.
Proof. destruct r as [|e]; simpl; [|destruct (is_Exception (exn_cls e))]; reflexivity. Qed.

(** C3. Once the browser is launched and the page opened, so that
    [test_timeline_editor] is called, [browser.close] is called exactly once
    whatever the function does; the call comes after everything the
    function did and before the shutdown that ends the run. *)
Theorem C3_browser_closed_exactly_once (ev : env) :
  ev CPlaywrightStart = None ->
  ev (CLaunch true) = None ->
  ev CNewPage = None ->
  count_close (trace (main ev)) = 1%nat /\
  exists before,
    trace (main ev) =
      before ++ [ EvCall CBrowserClose (ev CBrowserClose);
                  EvCall CPlaywrightStop (ev CPlaywrightStop) ] /\
    count_close before = 0%nat /\
    exists setup log, before = setup ++ trace (test_timeline_editor ev) ++ log.
Proof.
  intros Hs Hl Hp. unfold main.
  rewrite (driver_trace ev test_timeline_editor Hs Hl Hp).
  split.
  - rewrite !count_close_app, script_never_closes, count_close_error_log. reflexivity.
  - exists ([ EvCall CPlaywrightStart None; EvCall (CLaunch true) None; EvCall CNewPage None ]
            ++ trace (test_timeline_editor ev)
            ++ error_log (outcome (test_timeline_editor ev))).
    split; [rewrite <- !app_assoc; reflexivity|].
    split.
    + rewrite !count_close_app, script_never_closes, count_close_error_log. reflexivity.
    + eexists _, _. reflexivity.
Qed.

Lemma C3_witness :
  count_close (trace (main env_content_times_out)) = 1%nat /\
  exists before,
    trace (main env_content_times_out) =
      before ++ [ EvCall CBrowserClose None; EvCall CPlaywrightStop None ] /\
    count_close before = 0%nat /\
    exists setup log, before = setup ++ trace (test_timeline_editor env_content_times_out) ++ log.
Proof.
  apply (C3_browser_closed_exactly_once env_content_times_out); reflexivity.
Defined.




(** ** C6: the injected session *)

Lemma cookie_assignment_parts :
  split_at ";" ("pb_auth=" +:+ JSON_stringify authStore +:+ "; path=/") =
  ("pb_auth=" +:+ JSON_stringify authStore, Some " path=/").
Proof. vm_compute. reflexivity. Qed.

Lemma cookie_name_value :
  split_at "=" ("pb_auth=" +:+ JSON_stringify authStore) =
  ("pb_auth", Some (JSON_stringify authStore)).
Proof. vm_compute. reflexivity. Qed.

Lemma inject_auth_script_unfold (st : page_storage) :
  inject_auth_script st =
  mk_storage (<["pocketbase_auth" := JSON_stringify authStore]> (localStorage st))
             (<["pb_auth" := JSON_stringify authStore]> (cookies st)).
Proof.
  unfold inject_auth_script, set_document_cookie, localStorage_setItem.
  rewrite cookie_assignment_parts, cookie_name_value. reflexivity.
Qed.

(** The text that is stored, written out. *)
Lemma authStore_text :
  JSON_stringify authStore =
  "{" +:+ quoted "token" +:+ ":" +:+ quoted "test-token" +:+ "," +:+
  quoted "model" +:+ ":{" +:+ quoted "id" +:+ ":" +:+ quoted "user1" +:+ "," +:+
  quoted "email" +:+ ":" +:+ quoted "test@test.com" +:+ "}}".
Proof. vm_compute. reflexivity. Qed.

(** C6. Whatever the page has stored before, the injected script leaves
    the JSON text of the object with token "test-token" and model
    (id "user1", email "test@test.com") under the storage key
    [pocketbase_auth] and as the value of the cookie [pb_auth]; the object
    has the fields token, model.id and model.email and no other; nothing
    else in the storage or among the cookies changes; and a run hands
    [page.evaluate] this script, once, or stops before it does. *)
Theorem C6_auth_injection (st : page_storage) :
  authStore = JObj [ ("token", JStr "test-token");
                     ("model", JObj [ ("id", JStr "user1");
                                      ("email", JStr "test@test.com") ]) ] /\
  field_paths authStore = [ ["token"]; ["model"; "id"]; ["model"; "email"] ] /\
  localStorage (inject_auth_script st) !! "pocketbase_auth" = Some (JSON_stringify authStore) /\
  cookies (inject_auth_script st) !! "pb_auth" = Some (JSON_stringify authStore) /\
  (forall k : string, k <> "pocketbase_auth" ->
     localStorage (inject_auth_script st) !! k = localStorage st !! k) /\
  (forall k : string, k <> "pb_auth" ->
     cookies (inject_auth_script st) !! k = cookies st !! k) /\
  (forall ev : env,
     evaluated_scripts (trace (test_timeline_editor ev)) = [] \/
     evaluated_scripts (trace (test_timeline_editor ev)) = [ inject_auth_script ]).
Proof.
  rewrite inject_auth_script_unfold. simpl.
  split; [reflexivity|]. split; [reflexivity|].
  split; [apply lookup_insert_eq|]. split; [apply lookup_insert_eq|].
  split; [intros k Hk; apply lookup_insert_ne; congruence|].
  split; [intros k Hk; apply lookup_insert_ne; congruence|].
  intros ev. all_runs ev; first [left; reflexivity | right; reflexivity].
Qed.

Lemma C6_witness :
  localStorage (inject_auth_script (mk_storage {[ "theme" := "dark" ]} ∅)) !! "theme"
    = Some "dark" /\
  cookies (inject_auth_script (mk_storage ∅ {[ "lang" := "en" ]})) !! "lang" = Some "en".
Proof.
  split.
  - destruct (C6_auth_injection (mk_storage {[ "theme" := "dark" ]} ∅))
      as (_ & _ & _ & _ & Hframe & _).
    rewrite (Hframe "theme"); [reflexivity|discriminate].
  - destruct (C6_auth_injection (mk_storage ∅ {[ "lang" := "en" ]}))
      as (_ & _ & _ & _ & _ & Hframe & _).
    rewrite (Hframe "lang"); [reflexivity|discriminate].
Defined.

(** ** The wait for the content and its handler *)

(** An event that is assumed to be in the trace of one run: go through
    the events of that trace. *)
Ltac find_event H :=
  unfold wait_for_content in H; simpl in H;
  repeat (destruct H as [H|H]; [try discriminate H|]);
  try contradiction.

(** C2, as the claim states it, fails: the wait of the assertion on the
    option "Creation Time" runs out, the failure leaves the function, and
    no screenshot has been asked for or written. *)
Lemma C2_counterexample :
  In (EvCall (CExpectVisible (get_by_role "option" "Creation Time") None) (Some not_visible))
     (trace (test_timeline_editor env_option_times_out)) /\
  outcome (test_timeline_editor env_option_times_out) = Raise not_visible /\
  screenshot_calls (trace (test_timeline_editor env_option_times_out)) = [] /\
  files_written (trace (test_timeline_editor env_option_times_out)) = [].
Proof. repeat split; try reflexivity. simpl. tauto. Qed.

(** A call that is assumed to be among the unguarded steps and is not. *)
Ltac not_unguarded H :=
  exfalso;
  cbv [unguarded_steps setup_calls assertion_sequence script_routes wait_for_content
       tl app List.map fst snd] in H;
  simpl in H;
  repeat (destruct H as [H|H]; [discriminate H|]);
  exact H.

(** C2, amended. When the wait for the text "Test Timeline" (the one wait
    the script gives a timeout, and the one step it guards) runs out, the
    run goes on with the line "Timeout. Taking screenshot..." and the call
    of [page.screenshot] for verification/timeout.png, and only then does a
    failure leave the function; when the screenshot call returns, the file
    is written and the failure is that of the wait.  When any other step
    before the final screenshot fails (a call up to the reload, or one of
    the interactions and assertions after the wait, which wait with the
    default timeouts), its failure leaves the function at once: the run has
    made no screenshot call and written no file. *)
Theorem C2_content_timeout_takes_screenshot (ev : env) :
  (forall e : py_exn,
     In (EvCall wait_for_content (Some e)) (trace (test_timeline_editor ev)) ->
     (exists before,
        trace (test_timeline_editor ev) =
          before ++ [ EvCall wait_for_content (Some e);
                      EvPrint "Timeout. Taking screenshot...";
                      EvCall (CScreenshot timeout_png) (ev (CScreenshot timeout_png)) ]) /\
     (exists e', outcome (test_timeline_editor ev) = Raise e') /\
     (ev (CScreenshot timeout_png) = None ->
        files_written (trace (test_timeline_editor ev)) = [ timeout_png ] /\
        outcome (test_timeline_editor ev) = Raise e)) /\
  (forall (c : call) (e : py_exn),
     In c unguarded_steps ->
     In (EvCall c (Some e)) (trace (test_timeline_editor ev)) ->
     outcome (test_timeline_editor ev) = Raise e /\
     screenshot_calls (trace (test_timeline_editor ev)) = [] /\
     files_written (trace (test_timeline_editor ev)) = []).
Proof.
  all_runs ev; split.
  all: try (intros e Hin; find_event Hin;
            injection Hin as <-;
            (split; [|split]);
            try (eexists; reflexivity);
            try (intros Hshot; first [discriminate Hshot | split; reflexivity]);
            match goal with
            | |- exists b, ?t = b ++ _ => exists (firstn (length t - 3) t); reflexivity
            end).
  all: intros c e Hc Hin; find_event Hin;
       injection Hin as <- <-;
       first [ solve [repeat split; reflexivity] | not_unguarded Hc ].
Qed.

Lemma C2_witness :
  ((exists before,
      trace (test_timeline_editor env_content_times_out) =
        before ++ [ EvCall wait_for_content (Some not_visible);
                    EvPrint "Timeout. Taking screenshot...";
                    EvCall (CScreenshot timeout_png) None ]) /\
   (exists e', outcome (test_timeline_editor env_content_times_out) = Raise e') /\
   (env_content_times_out (CScreenshot timeout_png) = None ->
      files_written (trace (test_timeline_editor env_content_times_out)) = [ timeout_png ] /\
      outcome (test_timeline_editor env_content_times_out) = Raise not_visible)) /\
  (outcome (test_timeline_editor (fun c => match c with
                                           | CClick _ => Some not_visible
                                           | _ => None
                                           end)) = Raise not_visible /\
   screenshot_calls (trace (test_timeline_editor (fun c => match c with
                                                           | CClick _ => Some not_visible
                                                           | _ => None
                                                           end))) = [] /\
   files_written (trace (test_timeline_editor (fun c => match c with
                                                        | CClick _ => Some not_visible
                                                        | _ => None
                                                        end))) = []).
Proof.
  split.
  - apply (proj1 (C2_content_timeout_takes_screenshot env_content_times_out) not_visible).
    simpl. tauto.
  - apply (proj2 (C2_content_timeout_takes_screenshot
                    (fun c => match c with CClick _ => Some not_visible | _ => None end))
                 (CClick "text=Recent") not_visible).
    + in_table.
    + simpl. tauto.
Defined.

(** C9, as the claim states it, fails: the wait raises, the screenshot
    call of the handler raises too, no file is written, and the exception
    that leaves the function is that of the screenshot call, not the one
    the wait raised. *)
Lemma C9_counterexample :
  In (EvCall wait_for_content (Some not_visible))
     (trace (test_timeline_editor env_wait_and_screenshot_fail)) /\
  files_written (trace (test_timeline_editor env_wait_and_screenshot_fail)) = [] /\
  outcome (test_timeline_editor env_wait_and_screenshot_fail) = Raise screenshot_failed /\
  screenshot_failed <> not_visible.
Proof.
  split; [simpl; tauto|]. split; [reflexivity|]. split; [reflexivity|].
  intros H. discriminate H.
Qed.

(** C9, amended. The handler around the wait for the content catches
    whatever the wait raises, of any class: the one screenshot call of the
    run is then the one for verification/timeout.png; when it returns, the
    file is written and the exception that leaves the function is the very
    one the wait raised; when it raises, no file is written and its own
    exception leaves instead. *)
Theorem C9_bare_except_reraises (ev : env) (e : py_exn) :
  In (EvCall wait_for_content (Some e)) (trace (test_timeline_editor ev)) ->
  screenshot_calls (trace (test_timeline_editor ev)) = [ timeout_png ] /\
  (ev (CScreenshot timeout_png) = None ->
     files_written (trace (test_timeline_editor ev)) = [ timeout_png ] /\
     outcome (test_timeline_editor ev) = Raise e) /\
  (forall e', ev (CScreenshot timeout_png) = Some e' ->
     files_written (trace (test_timeline_editor ev)) = [] /\
     outcome (test_timeline_editor ev) = Raise e').
Proof.
  all_runs ev; intros Hin; find_event Hin;
    injection Hin as <-;
    (split; [reflexivity|split]).
  - intros Hshot; discriminate Hshot.
  - intros e' He'. injection He' as <-. split; reflexivity.
  - intros _. split; reflexivity.
  - intros e' He'. discriminate He'.
Qed.

Lemma C9_witness :
  is_Exception (exn_cls interrupted) = false /\
  screenshot_calls (trace (test_timeline_editor env_wait_interrupted)) = [ timeout_png ] /\
  (env_wait_interrupted (CScreenshot timeout_png) = None ->
     files_written (trace (test_timeline_editor env_wait_interrupted)) = [ timeout_png ] /\
     outcome (test_timeline_editor env_wait_interrupted) = Raise interrupted) /\
  (forall e', env_wait_interrupted (CScreenshot timeout_png) = Some e' ->
     files_written (trace (test_timeline_editor env_wait_interrupted)) = [] /\
     outcome (test_timeline_editor env_wait_interrupted) = Raise e').
Proof.
  split; [reflexivity|].
  apply (C9_bare_except_reraises env_wait_interrupted interrupted).
  simpl. tauto.
Defined.

(** C10. When one of the assertions after the wait for the content fails,
    its exception leaves the function, and the run has made no screenshot
    call at all: neither file is written. *)
Theorem C10_later_failures_write_no_screenshot (ev : env) (c : call) (e : py_exn) :
  In c later_assertions ->
  In (EvCall c (Some e)) (trace (test_timeline_editor ev)) ->
  outcome (test_timeline_editor ev) = Raise e /\
  screenshot_calls (trace (test_timeline_editor ev)) = [] /\
  files_written (trace (test_timeline_editor ev)) = [].
Proof.
  all_runs ev; intros Hc Hin; find_event Hin;
    injection Hin as <- <-;
    simpl in Hc; repeat (destruct Hc as [Hc|Hc]; [try discriminate Hc|]);
    try contradiction; repeat split; reflexivity.
Qed.

Lemma C10_witness :
  outcome (test_timeline_editor env_option_times_out) = Raise not_visible /\
  screenshot_calls (trace (test_timeline_editor env_option_times_out)) = [] /\
  files_written (trace (test_timeline_editor env_option_times_out)) = [].
Proof.
  apply (C10_later_failures_write_no_screenshot env_option_times_out
           (CExpectVisible (get_by_role "option" "Creation Time") None) not_visible).
  - simpl. tauto.
  - simpl. tauto.
Defined.

(** ** The order of the checks and the final screenshot *)

(** C5. After the reload a run makes the calls of the fixed sequence, in
    its order and with nothing in between: the wait for "Test Timeline"
    with its timeout of 10000 ms, the click that opens the sort control,
    the assertion on the option "Creation Time", the Escape key, the
    assertion on the element titled "Settings" and the click on it, the
    assertions on "Recommendation Settings" and on "Active Strategies", and
    then the final screenshot; a run stops in that sequence only where a
    call raises (after a failed wait, with the timeout screenshot), and a
    call that raises makes the function raise. *)
Theorem C5_assertion_sequence (ev : env) :
  (exists n,
     after_reload (calls (trace (test_timeline_editor ev))) =
       firstn n (assertion_sequence ++ [ CScreenshot verification_png ]) \/
     after_reload (calls (trace (test_timeline_editor ev))) =
       [ wait_for_content; CScreenshot timeout_png ]) /\
  (outcome (test_timeline_editor ev) = Ok tt ->
     after_reload (calls (trace (test_timeline_editor ev))) =
       assertion_sequence ++ [ CScreenshot verification_png ]) /\
  (forall c e,
     In c assertion_sequence ->
     In (EvCall c (Some e)) (trace (test_timeline_editor ev)) ->
     outcome (test_timeline_editor ev) = Raise e \/
     (c = wait_for_content /\
      exists e', ev (CScreenshot timeout_png) = Some e' /\
                 outcome (test_timeline_editor ev) = Raise e')).
Proof.
  all_runs ev; (split; [|split]);
    try (intros Hok; first [discriminate Hok | reflexivity]);
    try (intros c e _ Hin; find_event Hin; injection Hin as <- <-;
         first [ left; reflexivity
               | right; split; [reflexivity|]; eexists; split; reflexivity ]);
    first [ exists 0%nat; right; reflexivity
          | exists 0%nat; left; reflexivity | exists 1%nat; left; reflexivity
          | exists 2%nat; left; reflexivity | exists 3%nat; left; reflexivity
          | exists 4%nat; left; reflexivity | exists 5%nat; left; reflexivity
          | exists 6%nat; left; reflexivity | exists 7%nat; left; reflexivity
          | exists 8%nat; left; reflexivity | exists 9%nat; left; reflexivity ].
Qed.

Lemma C5_witness :
  after_reload (calls (trace (test_timeline_editor ok_env))) =
    assertion_sequence ++ [ CScreenshot verification_png ] /\
  (outcome (test_timeline_editor env_option_times_out) = Raise not_visible \/
   (CExpectVisible (get_by_role "option" "Creation Time") None = wait_for_content /\
    exists e', env_option_times_out (CScreenshot timeout_png) = Some e' /\
               outcome (test_timeline_editor env_option_times_out) = Raise e')).
Proof.
  split.
  - apply (proj1 (proj2 (C5_assertion_sequence ok_env))). reflexivity.
  - apply (proj2 (proj2 (C5_assertion_sequence env_option_times_out))
             (CExpectVisible (get_by_role "option" "Creation Time") None) not_visible).
    + simpl. tauto.
    + simpl. tauto.
Defined.

(** Two answers of the environment to one call that disagree. *)
Ltac conflict :=
  match goal with
  | H1 : ?ev ?c = Some _, H2 : ?ev ?c = None |- _ => rewrite H2 in H1; discriminate H1
  end.

Ltac unfold_all_return :=
  cbv [all_return setup_calls assertion_sequence script_routes app List.map fst snd].

Ltac unfold_all_return_in H :=
  cbv [all_return setup_calls assertion_sequence script_routes app List.map fst snd] in H.

(** C8. [page.screenshot] is called for verification/verification.png
    exactly in the runs in which every call before it has returned; the
    file is written exactly in the runs that return normally; and in those
    the screenshot is the last call of the function, followed only by the
    line "Screenshot taken.". *)
Theorem C8_final_screenshot (ev : env) :
  (In verification_png (screenshot_calls (trace (test_timeline_editor ev))) <->
   all_return ev (setup_calls ++ assertion_sequence)) /\
  (In verification_png (files_written (trace (test_timeline_editor ev))) <->
   outcome (test_timeline_editor ev) = Ok tt) /\
  (outcome (test_timeline_editor ev) = Ok tt ->
   exists before,
     trace (test_timeline_editor ev) =
       before ++ [ EvCall (CScreenshot verification_png) None;
                   EvPrint "Screenshot taken." ]).
Proof.
  all_runs ev; (split; [|split]);
    try (intros Hok;
         first [ discriminate Hok
               | match goal with
                 | |- exists b, ?t = b ++ _ =>
                     exists (firstn (length t - 2) t); reflexivity
                 end ]);
    (split; intros H);
    try discriminate H;
    try (unfold timeout_png, verification_png in H; simpl in H;
         repeat (destruct H as [H|H]; [try discriminate H|]); contradiction);
    try (simpl; left; reflexivity);
    try (unfold_all_return; repeat split; assumption);
    exfalso; unfold_all_return_in H;
    repeat match goal with H : _ /\ _ |- _ => destruct H end; conflict.
Qed.

Lemma C8_witness :
  In verification_png (files_written (trace (test_timeline_editor ok_env))) /\
  exists before,
    trace (test_timeline_editor ok_env) =
      before ++ [ EvCall (CScreenshot verification_png) None;
                  EvPrint "Screenshot taken." ].
Proof.
  split.
  - apply (proj2 (proj1 (proj2 (C8_final_screenshot ok_env)))). reflexivity.
  - apply (proj2 (proj2 (C8_final_screenshot ok_env))). reflexivity.
Defined.

(** * The driver when its own calls fail *)

Lemma driver_setup_failure (ev : env) (test : M unit) :
  ~ all_return ev driver_setup ->
  exists e,
    (ev CPlaywrightStart = Some e /\
     driver test ev = ([ EvCall CPlaywrightStart (Some e) ], Raise e)) \/
    (ev CPlaywrightStart = None /\ ev (CLaunch true) = Some e /\
     driver test ev =
       ([ EvCall CPlaywrightStart None; EvCall (CLaunch true) (Some e);
          EvCall CPlaywrightStop (ev CPlaywrightStop) ],
        Raise (default e (ev CPlaywrightStop)))) \/
    (ev CPlaywrightStart = None /\ ev (CLaunch true) = None /\ ev CNewPage = Some e /\
     driver test ev =
       ([ EvCall CPlaywrightStart None; EvCall (CLaunch true) None;
          EvCall CNewPage (Some e); EvCall CPlaywrightStop (ev CPlaywrightStop) ],
        Raise (default e (ev CPlaywrightStop)))).
Proof.
  intros Hnot.
  unfold driver, with_sync_playwright, try_finally, mbind, M_bind, do_call.
  destruct (ev CPlaywrightStart) as [e|] eqn:Hs.
  { exists e. left. split; reflexivity. }
  destruct (ev (CLaunch true)) as [e|] eqn:Hl.
  { exists e. right. left. destruct (ev CPlaywrightStop); repeat split; reflexivity. }
  destruct (ev CNewPage) as [e|] eqn:Hp.
  { exists e. right. right. destruct (ev CPlaywrightStop); repeat split; reflexivity. }
  exfalso. apply Hnot. simpl. rewrite Hs, Hl, Hp. tauto.
Qed.

Lemma driver_setup_returns (ev : env) :
  all_return ev driver_setup ->
  ev CPlaywrightStart = None /\ ev (CLaunch true) = None /\ ev CNewPage = None.
Proof. simpl. tauto. Qed.

Lemma driver_setup_cases (ev : env) :
  all_return ev driver_setup \/ ~ all_return ev driver_setup.
Proof.
  simpl.
  destruct (ev CPlaywrightStart); [right; intros [H _]; discriminate H|].
  destruct (ev (CLaunch true)); [right; intros (_ & H & _); discriminate H|].
  destruct (ev CNewPage); [right; intros (_ & _ & H & _); discriminate H|].
  left. tauto.
Qed.

(** X1. When one of the three calls of the driver that come before the
    function raises (starting the library, launching the browser, opening
    the page), [test_timeline_editor] is not called: the run makes no call
    on the page, prints nothing (no "Error: " line either, these calls are
    outside the [try]), never calls [browser.close], and ends with an
    exception. *)
Theorem X1_setup_failure_skips_the_test (ev : env) :
  ~ all_return ev driver_setup ->
  count_close (trace (main ev)) = 0%nat /\
  prints (trace (main ev)) = [] /\
  (forall c, In c (calls (trace (main ev))) -> In c (driver_setup ++ [ CPlaywrightStop ])) /\
  exists e, outcome (main ev) = Raise e.
Proof.
  intros Hnot. unfold main.
  destruct (driver_setup_failure ev test_timeline_editor Hnot)
    as [e [(_ & ->)|[(_ & _ & ->)|(_ & _ & _ & ->)]]];
    (split; [reflexivity|]); (split; [reflexivity|]);
    (split; [intros c Hc; simpl in Hc |- *; tauto|]);
    eexists; reflexivity.
Qed.

Lemma X1_witness :
  count_close (trace (main env_no_page)) = 0%nat /\
  prints (trace (main env_no_page)) = [] /\
  (forall c, In c (calls (trace (main env_no_page))) ->
             In c (driver_setup ++ [ CPlaywrightStop ])) /\
  exists e, outcome (main env_no_page) = Raise e.
Proof.
  apply (X1_setup_failure_skips_the_test env_no_page).
  simpl. intros (_ & _ & H & _). discriminate H.
Defined.

(** X2. When the browser is launched and opening the page raises, the
    run is those three calls and the shutdown of the library:
    [browser.close] is not called for the browser that was launched (the
    call of [new_page] is before the [try]), and the exception that leaves
    is that of [new_page], or that of the shutdown when it raises too. *)
Theorem X2_new_page_failure_leaves_the_browser_to_the_shutdown (ev : env) (e : py_exn) :
  ev CPlaywrightStart = None ->
  ev (CLaunch true) = None ->
  ev CNewPage = Some e ->
  trace (main ev) =
    [ EvCall CPlaywrightStart None; EvCall (CLaunch true) None;
      EvCall CNewPage (Some e); EvCall CPlaywrightStop (ev CPlaywrightStop) ] /\
  outcome (main ev) = Raise (default e (ev CPlaywrightStop)).
Proof.
  intros Hs Hl Hp. unfold main.
  assert (Hnot : ~ all_return ev driver_setup).
  { simpl. intros (_ & _ & H & _). rewrite Hp in H. discriminate H. }
  destruct (driver_setup_failure ev test_timeline_editor Hnot)
    as [e' [(H & _)|[(_ & H & _)|(_ & _ & H & ->)]]].
  - rewrite Hs in H. discriminate H.
  - rewrite Hl in H. discriminate H.
  - rewrite Hp in H. injection H as <-. split; reflexivity.
Qed.

Lemma X2_witness :
  trace (main env_no_page) =
    [ EvCall CPlaywrightStart None; EvCall (CLaunch true) None;
      EvCall CNewPage
        (Some (mk_exn PlaywrightError "Target page, context or browser has been closed"));
      EvCall CPlaywrightStop None ] /\
  outcome (main env_no_page) =
    Raise (mk_exn PlaywrightError "Target page, context or browser has been closed").
Proof.
  apply (X2_new_page_failure_leaves_the_browser_to_the_shutdown env_no_page
           (mk_exn PlaywrightError "Target page, context or browser has been closed"));
    reflexivity.
Defined.

(** X3. When [browser.close] raises in the [finally], the run ends with
    an exception whatever [test_timeline_editor] did, also when it
    returned: the exception of [browser.close] (or that of the shutdown of
    the library, which still runs last, when it raises too) takes the place
    of the outcome of the [try]. *)
Theorem X3_close_failure_replaces_the_outcome (ev : env) (e : py_exn) :
  all_return ev driver_setup ->
  ev CBrowserClose = Some e ->
  outcome (main ev) = Raise (default e (ev CPlaywrightStop)) /\
  last (trace (main ev)) = Some (EvCall CPlaywrightStop (ev CPlaywrightStop)) /\
  prints (trace (main ev)) =
    prints (trace (test_timeline_editor ev))
    ++ prints (error_log (outcome (test_timeline_editor ev))).
Proof.
  intros Hsetup Hclose.
  destruct (driver_setup_returns ev Hsetup) as (Hs & Hl & Hp).
  unfold main.
  rewrite (driver_trace ev test_timeline_editor Hs Hl Hp).
  rewrite (driver_outcome ev test_timeline_editor Hs Hl Hp).
  rewrite Hclose.
  split; [destruct (ev CPlaywrightStop); reflexivity|].
  split.
  - change [ EvCall CBrowserClose (Some e); EvCall CPlaywrightStop (ev CPlaywrightStop) ]
      with ([ EvCall CBrowserClose (Some e) ] ++ [ EvCall CPlaywrightStop (ev CPlaywrightStop) ]).
    rewrite !app_assoc. apply last_snoc.
  - simpl. rewrite !prints_app. simpl. rewrite app_nil_r. reflexivity.
Qed.

Lemma X3_witness :
  outcome (test_timeline_editor env_close_fails) = Ok tt /\
  outcome (main env_close_fails) = Raise (mk_exn PlaywrightError "Connection closed") /\
  last (trace (main env_close_fails)) = Some (EvCall CPlaywrightStop None) /\
  prints (trace (main env_close_fails)) =
    prints (trace (test_timeline_editor env_close_fails))
    ++ prints (error_log (outcome (test_timeline_editor env_close_fails))).
Proof.
  split; [reflexivity|].
  apply (X3_close_failure_replaces_the_outcome env_close_fails
           (mk_exn PlaywrightError "Connection closed")).
  - simpl. tauto.
  - reflexivity.
Defined.

(** X4. The run of the program ends normally exactly when the five calls
    of the driver return (start, launch, page, close, shutdown) and
    [test_timeline_editor] returns or raises an instance of [Exception]. *)
Theorem X4_main_returns_iff (ev : env) :
  outcome (main ev) = Ok tt <->
  all_return ev (driver_setup ++ [ CBrowserClose; CPlaywrightStop ]) /\
  (outcome (test_timeline_editor ev) = Ok tt \/
   exists e, outcome (test_timeline_editor ev) = Raise e /\ is_Exception (exn_cls e) = true).
Proof.
  destruct (driver_setup_cases ev) as [Hsetup|Hnot].
  - destruct (driver_setup_returns ev Hsetup) as (Hs & Hl & Hp).
    unfold main. rewrite (driver_outcome ev test_timeline_editor Hs Hl Hp).
    simpl. rewrite Hs, Hl, Hp.
    destruct (ev CPlaywrightStop) as [e1|].
    { split; [intros H; discriminate H|intros [(_ & _ & _ & _ & H & _) _]; discriminate H]. }
    destruct (ev CBrowserClose) as [e2|].
    { split; [intros H; discriminate H|intros [(_ & _ & _ & H & _) _]; discriminate H]. }
    destruct (outcome (test_timeline_editor ev)) as [[]|e]; simpl.
    + split; [intros _|reflexivity]. split; [tauto|left; reflexivity].
    + destruct (is_Exception (exn_cls e)) eqn:He.
      * split; [intros _|reflexivity]. split; [tauto|].
        right. exists e. split; [reflexivity|exact He].
      * split; [intros H; discriminate H|].
        intros [_ [H|[e' [H He']]]]; [discriminate H|].
        injection H as <-. rewrite He in He'. discriminate He'.
  - split.
    + intros Hok. exfalso.
      destruct (driver_setup_failure ev test_timeline_editor Hnot)
        as [e [(_ & H)|[(_ & _ & H)|(_ & _ & _ & H)]]];
        unfold main in Hok; rewrite H in Hok; discriminate Hok.
    + intros [Hall _]. exfalso. apply Hnot. simpl in Hall |- *. tauto.
Qed.

(** * More on every run of [test_timeline_editor] *)

(** ** The calls of a run *)

Lemma calls_of_a_run (ev : env) :
  (exists n, calls (trace (test_timeline_editor ev)) = firstn n script_calls) \/
  calls (trace (test_timeline_editor ev)) =
    setup_calls ++ [ wait_for_content; CScreenshot timeout_png ].
Proof.
  all_runs ev;
    first [ right; reflexivity
          | left;
            match goal with
            | |- exists n, calls ?t = _ => exists (length (calls t)); reflexivity
            end ].
Qed.

Ltac unfold_calls :=
  cbv [script_calls setup_calls assertion_sequence script_routes wait_for_content
       target_url timeout_png verification_png app List.map fst snd].

Ltac distinct_calls :=
  repeat (apply List.NoDup_cons;
          [ simpl; intros Hin;
            repeat (destruct Hin as [Hin|Hin]; [discriminate Hin|]); exact Hin
          | ]);
  apply List.NoDup_nil.

Lemma script_calls_distinct : List.NoDup script_calls.
Proof. unfold_calls. distinct_calls. Qed.

Lemma handled_calls_distinct :
  List.NoDup (setup_calls ++ [ wait_for_content; CScreenshot timeout_png ]).
Proof. unfold_calls. distinct_calls. Qed.

(** X5. The calls of a run of [test_timeline_editor] are an initial
    segment of the calls of the script, in its order: the two listeners,
    the six routes, the navigation, the injection, the reload, the eight
    waits and interactions and the final screenshot; the one other run is
    the one through the handler of the wait, which ends with the wait and
    the screenshot for verification/timeout.png. *)
Theorem X5_calls_follow_the_script (ev : env) :
  (exists n, calls (trace (test_timeline_editor ev)) = firstn n script_calls) \/
  calls (trace (test_timeline_editor ev)) =
    setup_calls ++ [ wait_for_content; CScreenshot timeout_png ].
Proof. exact (calls_of_a_run ev). Qed.

(** X6. No run of [test_timeline_editor] makes the same call twice (the
    same method with the same arguments): what a call answers can be read
    off the call alone. *)
Theorem X6_no_call_is_made_twice (ev : env) :
  List.NoDup (calls (trace (test_timeline_editor ev))).
Proof.
  destruct (calls_of_a_run ev) as [[n ->]| ->].
  - pose proof script_calls_distinct as H.
    rewrite <- (firstn_skipn n script_calls) in H.
    exact (List.NoDup_app_remove_r _ _ H).
  - exact handled_calls_distinct.
Qed.

(** ** The lines of a run *)

(** X7. The lines written by the [print] statements of
    [test_timeline_editor] itself (the lines that the route handlers and
    the page listeners print while a call into the library runs come in
    between in the output, and are not meant) are, in their order, an
    initial segment of its nine progress lines, or the first four of them
    followed by "Timeout. Taking screenshot..."; the function's own
    statements write all nine exactly in the runs that return. *)
Theorem X7_lines_follow_the_script (ev : env) :
  ((exists n, prints (trace (test_timeline_editor ev)) = firstn n progress_lines) \/
   prints (trace (test_timeline_editor ev)) = firstn 4 progress_lines ++ [ timeout_line ]) /\
  (prints (trace (test_timeline_editor ev)) = progress_lines <->
   outcome (test_timeline_editor ev) = Ok tt).
Proof.
  all_runs ev; split;
    try (split; intros H; first [discriminate H | reflexivity]);
    first [ right; reflexivity
          | left;
            match goal with
            | |- exists n, prints ?t = _ => exists (length (prints t)); reflexivity
            end ].
Qed.

Ltac unfold_returns :=
  cbv [all_return setup_calls assertion_sequence script_routes app List.map fst snd firstn].

Ltac unfold_returns_in H :=
  cbv [all_return setup_calls assertion_sequence script_routes app List.map fst snd firstn] in H.

(** A line that is assumed to be among the lines of one run. *)
Ltac find_line H :=
  simpl in H; repeat (destruct H as [H|H]; [try discriminate H|]); try contradiction.

Ltac line_iff_returns :=
  split; intros H;
  [ first [ solve [find_line H]
          | unfold_returns; repeat split; assumption ]
  | first [ solve [simpl; tauto]
          | exfalso; unfold_returns_in H;
            repeat match goal with H : _ /\ _ |- _ => destruct H end; conflict ] ].

(** X8. The progress lines tell the truth: "Timeline loaded." is printed
    exactly in the runs in which every call up to and including the wait for
    "Test Timeline" returned; "Creation Time option found." exactly when also
    the click that opens the sort control and the assertion on the option
    returned; "Settings button found." exactly when also the Escape key and
    the assertion on the button returned; "Settings modal opened." exactly
    when all eight waits and interactions returned. *)
Theorem X8_progress_lines_are_truthful (ev : env) :
  (In "Timeline loaded." (prints (trace (test_timeline_editor ev))) <->
   all_return ev (setup_calls ++ firstn 1 assertion_sequence)) /\
  (In "Creation Time option found." (prints (trace (test_timeline_editor ev))) <->
   all_return ev (setup_calls ++ firstn 3 assertion_sequence)) /\
  (In "Settings button found." (prints (trace (test_timeline_editor ev))) <->
   all_return ev (setup_calls ++ firstn 5 assertion_sequence)) /\
  (In "Settings modal opened." (prints (trace (test_timeline_editor ev))) <->
   all_return ev (setup_calls ++ assertion_sequence)).
Proof.
  all_runs ev; (split; [|split; [|split]]); line_iff_returns.
Qed.

(** ** Failures *)

Lemma failures_end_run_sound (ev : env) (t : list event) :
  failures_end_run ev t ->
  forall t1 c e t2,
    t = t1 ++ EvCall c (Some e) :: t2 ->
    t2 = [] \/
    (c = wait_for_content /\
     t2 = [ EvPrint timeout_line;
            EvCall (CScreenshot timeout_png) (ev (CScreenshot timeout_png)) ]).
Proof.
  induction t as [|x t IH]; intros Hchk t1 c e t2 Hsplit.
  - destruct t1; discriminate Hsplit.
  - destruct t1 as [|y t1].
    + injection Hsplit as -> ->. simpl in Hchk. exact (proj1 Hchk).
    + injection Hsplit as <- ->.
      apply (IH) with (t1 := t1) (e := e).
      * destruct x as [c0 [e0|]|line]; simpl in Hchk; [exact (proj2 Hchk)|exact Hchk|exact Hchk].
      * reflexivity.
Qed.

Lemma script_failures_end_run (ev : env) :
  failures_end_run ev (trace (test_timeline_editor ev)).
Proof.
  all_runs ev; simpl; repeat split;
    first [ left; reflexivity
          | right; split; [reflexivity|];
            repeat match goal with H : ev _ = _ |- _ => rewrite H end; reflexivity ].
Qed.

(** X9. [test_timeline_editor] stops at the first call that raises:
    nothing follows a call that raised, neither a line nor a call, with one
    exception, the guarded wait for "Test Timeline", which is followed by
    the line and the screenshot call of its handler and by nothing more. *)
Theorem X9_a_failure_ends_the_run
    (ev : env) (t1 t2 : list event) (c : call) (e : py_exn) :
  trace (test_timeline_editor ev) = t1 ++ EvCall c (Some e) :: t2 ->
  t2 = [] \/
  (c = wait_for_content /\
   t2 = [ EvPrint timeout_line;
          EvCall (CScreenshot timeout_png) (ev (CScreenshot timeout_png)) ]).
Proof.
  intros Hsplit.
  exact (failures_end_run_sound ev _ (script_failures_end_run ev) t1 c e t2 Hsplit).
Qed.

Lemma X9_witness :
  [ EvPrint timeout_line; EvCall (CScreenshot timeout_png) None ] = [] \/
  (wait_for_content = wait_for_content /\
   [ EvPrint timeout_line; EvCall (CScreenshot timeout_png) None ] =
     [ EvPrint timeout_line;
       EvCall (CScreenshot timeout_png) (env_content_times_out (CScreenshot timeout_png)) ]).
Proof.
  apply (X9_a_failure_ends_the_run env_content_times_out
           (firstn 15 (trace (test_timeline_editor ok_env)))
           [ EvPrint timeout_line; EvCall (CScreenshot timeout_png) None ]
           wait_for_content not_visible).
  reflexivity.
Defined.

(** X10. [test_timeline_editor] swallows no exception and raises none of
    its own: it returns exactly in the runs in which no call raised, and
    the exception that leaves it is the one raised by the last call that
    raised (the screenshot call of the handler when that one raises after
    the wait, the first and only failing call otherwise). *)
Theorem X10_no_exception_is_swallowed (ev : env) :
  (outcome (test_timeline_editor ev) = Ok tt <->
   raised (trace (test_timeline_editor ev)) = []) /\
  (forall e,
     outcome (test_timeline_editor ev) = Raise e <->
     exists c, last (raised (trace (test_timeline_editor ev))) = Some (c, e)).
Proof.
  all_runs ev; split;
    try (split; intros H; first [discriminate H | reflexivity]);
    intros e'; (split; [intros H|intros [c H]]);
    try discriminate H;
    try (injection H as <-; eexists; reflexivity);
    try (simpl in H; injection H as _ <-; reflexivity).
Qed.

(** ** Screenshots *)

Lemma screenshot_calls_app (t1 t2 : list event) :
  screenshot_calls (t1 ++ t2) = screenshot_calls t1 ++ screenshot_calls t2.
Proof.
  induction t1 as [|[c r|line] t1 IH]; simpl; [reflexivity| |exact IH].
  destruct c; simpl; rewrite ?IH; reflexivity.
Qed.

Lemma files_written_app (t1 t2 : list event) :
  files_written (t1 ++ t2) = files_written t1 ++ files_written t2.
Proof.
  induction t1 as [|[c r|line] t1 IH]; simpl; [reflexivity| |exact IH].
  destruct c, r; simpl; rewrite ?IH; reflexivity.
Qed.

Lemma script_screenshots (ev : env) :
  (screenshot_calls (trace (test_timeline_editor ev)) = [] /\
   files_written (trace (test_timeline_editor ev)) = []) \/
  (screenshot_calls (trace (test_timeline_editor ev)) = [ timeout_png ] /\
   (files_written (trace (test_timeline_editor ev)) = [] \/
    files_written (trace (test_timeline_editor ev)) = [ timeout_png ])) \/
  (screenshot_calls (trace (test_timeline_editor ev)) = [ verification_png ] /\
   (files_written (trace (test_timeline_editor ev)) = [] \/
    files_written (trace (test_timeline_editor ev)) = [ verification_png ])).
Proof.
  all_runs ev;
    first [ left; split; reflexivity
          | right; left; split; [reflexivity|]; first [left; reflexivity|right; reflexivity]
          | right; right; split; [reflexivity|]; first [left; reflexivity|right; reflexivity] ].
Qed.

Lemma screenshot_calls_error_log (r : result unit) :
  screenshot_calls (error_log r) = [] /\ files_written (error_log r) = [].
Proof. destruct r as [|e]; simpl; [|destruct (is_Exception (exn_cls e))]; split; reflexivity. Qed.

(** X11. A run of the program calls [page.screenshot] at most once, for
    verification/timeout.png or for verification/verification.png, and
    writes at most that one file: no run leaves both files, and no run
    writes a file at another path. *)
Theorem X11_at_most_one_screenshot (ev : env) :
  (screenshot_calls (trace (main ev)) = [] /\ files_written (trace (main ev)) = []) \/
  (screenshot_calls (trace (main ev)) = [ timeout_png ] /\
   (files_written (trace (main ev)) = [] \/
    files_written (trace (main ev)) = [ timeout_png ])) \/
  (screenshot_calls (trace (main ev)) = [ verification_png ] /\
   (files_written (trace (main ev)) = [] \/
    files_written (trace (main ev)) = [ verification_png ])).
Proof.
  destruct (driver_setup_cases ev) as [Hsetup|Hnot].
  - destruct (driver_setup_returns ev Hsetup) as (Hs & Hl & Hp).
    unfold main. rewrite (driver_trace ev test_timeline_editor Hs Hl Hp).
    rewrite !screenshot_calls_app, !files_written_app.
    destruct (screenshot_calls_error_log (outcome (test_timeline_editor ev))) as [-> ->].
    simpl. rewrite !app_nil_r.
    exact (script_screenshots ev).
  - left. unfold main.
    destruct (driver_setup_failure ev test_timeline_editor Hnot)
      as [e [(_ & ->)|[(_ & _ & ->)|(_ & _ & _ & ->)]]]; split; reflexivity.
Qed.

(** * The mocks and the injected session, once more *)

Lemma script_routes_ignore_the_request :
  Forall (fun ph =>
            (forall r1 r2 : route, fulfilments (snd ph r1) = fulfilments (snd ph r2)) /\
            (forall r : route,
               handler_prints (snd ph r) =
                 if bool_decide (fst ph = "**/api/files/**") then []
                 else [ "MOCKING: " +:+ request_url r ]))
         script_routes.
Proof. repeat constructor. Qed.

(** X12. What a registered handler answers does not depend on the request
    it is given (its URL, and with it any query, is only printed): two
    requests to the same route are fulfilled alike.  The five JSON handlers
    print one line, "MOCKING: " and the URL of the request; the handler of
    the files prints nothing. *)
Theorem X12_mocks_ignore_the_request (ev : env) (pattern : string) (h : handler) :
  In (pattern, h) (routes_registered (trace (test_timeline_editor ev))) ->
  (forall r1 r2 : route, fulfilments (h r1) = fulfilments (h r2)) /\
  (forall r : route,
     handler_prints (h r) =
       if bool_decide (pattern = "**/api/files/**") then []
       else [ "MOCKING: " +:+ request_url r ]).
Proof.
  intros Hin.
  destruct (routes_registered_prefix ev) as [n Hn].
  rewrite Hn in Hin.
  assert (Hin' : In (pattern, h) script_routes).
  { rewrite <- (firstn_skipn n script_routes). apply in_or_app. left. exact Hin. }
  exact (proj1 (List.Forall_forall _ _) script_routes_ignore_the_request (pattern, h) Hin').
Qed.

Lemma X12_witness :
  (forall r1 r2 : route, fulfilments (timeline_handler r1) = fulfilments (timeline_handler r2)) /\
  (forall r : route,
     handler_prints (timeline_handler r) =
       if bool_decide ("**/api/collections/Timelines/records/tl1*" = "**/api/files/**") then []
       else [ "MOCKING: " +:+ request_url r ]).
Proof.
  apply (X12_mocks_ignore_the_request ok_env
           "**/api/collections/Timelines/records/tl1*" timeline_handler).
  simpl. tauto.
Defined.

(** X13. Running the injected script again changes nothing: the storage
    and the cookies after two runs are those after one, so evaluating it in
    a page that already holds the session is harmless. *)
Theorem X13_injection_is_idempotent (st : page_storage) :
  inject_auth_script (inject_auth_script st) = inject_auth_script st.
Proof.
  rewrite !inject_auth_script_unfold. simpl.
  rewrite !insert_insert_eq. reflexivity.
Qed.

(** X14. The fixtures of the script agree with one another: the mocked
    auth refresh returns the token and the user record that the injected
    session holds; the one mocked workspace is the workspace the mocked
    timeline refers to, and it has the injected user among its members; the
    id of the mocked timeline is the one in the URL the script opens and in
    the pattern of the timeline route. *)
Theorem X14_fixtures_agree :
  field "token" auth_refresh_data = field "token" authStore /\
  field "record" auth_refresh_data = field "model" authStore /\
  (exists workspace user uid members,
     field "items" workspaces_data = Some (JArr [ workspace ]) /\
     field "id" workspace = field "WorkspaceRef" timeline_data /\
     field "model" authStore = Some user /\
     field "id" user = Some uid /\
     field "members" workspace = Some (JArr members) /\
     In uid members) /\
  (exists id,
     field "id" timeline_data = Some (JStr id) /\
     target_url = "http://localhost:3000/timelines/" +:+ id /\
     In ("**/api/collections/Timelines/records/" +:+ id +:+ "*") mocked_patterns).
Proof.
  split; [reflexivity|]. split; [reflexivity|]. split.
  - eexists _, _, _, _. repeat split; try reflexivity. simpl. left. reflexivity.
  - eexists. repeat split; try reflexivity. simpl. tauto.
Qed.
